(** * convert_icon.py: the iconset size reporter

    The script binds one constant table, [sizes], and prints a fixed
    report around one [for] loop over that table.  It is embedded here as a
    small abstract machine: one control point per source statement (named
    after its line in [convert_icon.py]), the module globals the script
    binds, the list iterator of the [for] statement, and the bytes written
    to standard output. *)

From Stdlib Require Import ZArith List Sorted String Ascii Bool Lia.
From Stdlib Require Import Decimal DecimalString DecimalPos DecimalZ.
Import ListNotations.

Local Open Scope Z_scope.
Local Open Scope list_scope.
Local Open Scope string_scope.

(** ** Text primitives *)

(** The line terminator written by [print]. *)
Definition newline : ascii := ascii_of_nat 10.
Definition nl : string := String newline EmptyString.

(** [str] on a Python [int]: the decimal numeral, with a leading minus sign
    for negative numbers and no leading zeros.  This is what a replacement
    field [{size}] of an f-string produces for an [int]. *)
Definition str (z : Z) : string := NilZero.string_of_int (Z.to_int z).

(** Joining lines as [print] writes them: each one followed by a newline. *)
Definition unlines (ls : list string) : string :=
  fold_right (fun l acc => l ++ nl ++ acc) "" ls.

(** Reading back what was written, line by line. *)
Fixpoint split_lines (cur s : string) : list string :=
  match s with
  | EmptyString => match cur with EmptyString => [] | _ => [cur] end
  | String c r =>
      if Ascii.eqb c newline then cur :: split_lines "" r
      else split_lines (cur ++ String c "") r
  end.

Definition lines (s : string) : list string := split_lines "" s.

(** ** The size table (lines 8-19) *)

Definition sizes : list (Z * string) :=
  [ (16, "icon_16x16.png");
    (32, "icon_16x16@2x.png");
    (32, "icon_32x32.png");
    (64, "icon_32x32@2x.png");
    (128, "icon_128x128.png");
    (256, "icon_128x128@2x.png");
    (256, "icon_256x256.png");
    (512, "icon_256x256@2x.png");
    (512, "icon_512x512.png");
    (1024, "icon_512x512@2x.png") ].

(** ** Machine state *)

(** Everything outside the process that the text of the script could
    read.  It imports [subprocess] and [os] but calls neither, and it never
    touches [sys.argv], the environment, standard input, the clock or a
    random source, so no statement below reads the world it is run in.
    What the interpreter itself takes from its environment (the encoding of
    standard output, the path on which the two imports are looked up, its
    limit on the length of a numeral) is not part of this machine. *)
Record World := mkWorld {
  argv : list string;
  environ : list (string * string);
  stdin : string;
  clock : Z;
  seed : Z }.

(** The module namespace.  Each variable has a single binding site, so its
    slot carries the type of what is bound there; [None] is an unbound name,
    and reading one raises [NameError]. *)
Record Globals := mkGlobals {
  g_doc : option string;
  g_modules : list string;
  g_sizes : option (list (Z * string));
  g_size : option Z;
  g_filename : option string }.

(** Control points: the first line of each statement of the script. *)
Inductive Line :=
  | L2 | L4 | L5 | L8
  | L21 | L22 | L23 | L24 | L25 | L26
  | L28 | L29
  | L31 | L32 | L33.

(** Either about to execute a statement, or terminated with an exit
    status: 0 after the last statement, 1 after an uncaught exception. *)
Inductive Control :=
  | At (l : Line)
  | Exit (code : Z).

Record State := mkState {
  world : World;
  control : Control;
  globals : Globals;
  (** the list iterator of the [for] statement: the list it walks and the
      index of the next element; [None] outside the loop *)
  iterator : option (list (Z * string) * nat);
  stdout : string }.

Definition empty_globals : Globals :=
  mkGlobals None [] None None None.

Definition init (w : World) : State :=
  mkState w (At L2) empty_globals None "".

(** ** State updates *)

Definition goto (l : Line) (st : State) : State :=
  let '(mkState w _ g it out) := st in mkState w (At l) g it out.

Definition exit_with (code : Z) (st : State) : State :=
  let '(mkState w _ g it out) := st in mkState w (Exit code) g it out.

(** An exception nobody catches ends the process with status 1. *)
Definition uncaught (st : State) : State := exit_with 1 st.

Definition with_globals (f : Globals -> Globals) (st : State) : State :=
  let '(mkState w c g it out) := st in mkState w c (f g) it out.

Definition set_iterator (it : option (list (Z * string) * nat))
    (st : State) : State :=
  let '(mkState w c g _ out) := st in mkState w c g it out.

Definition bind_doc (d : string) (g : Globals) : Globals :=
  let '(mkGlobals _ ms t sz fn) := g in mkGlobals (Some d) ms t sz fn.

Definition bind_module (m : string) (g : Globals) : Globals :=
  let '(mkGlobals d ms t sz fn) := g in mkGlobals d (m :: ms) t sz fn.

Definition bind_sizes (t : list (Z * string)) (g : Globals) : Globals :=
  let '(mkGlobals d ms _ sz fn) := g in mkGlobals d ms (Some t) sz fn.

(** The target list [size, filename] of the [for] statement: the two
    components of the element are bound to [size] and [filename]. *)
Definition bind_target (e : Z * string) (g : Globals) : Globals :=
  let '(mkGlobals d ms t _ _) := g in
  let '(size, filename) := e in
  mkGlobals d ms t (Some size) (Some filename).

(** [print(s)] appends [s] and a newline; [print()] is [print ""]. *)
Definition print (s : string) (st : State) : State :=
  let '(mkState w c g it out) := st in mkState w c g it (out ++ s ++ nl).

(** The f-string of line 29. *)
Definition entry_line (filename : string) (size : Z) : string :=
  "- " ++ filename ++ ": " ++ str size ++ "x" ++ str size ++ " pixels".

(** ** One statement at a time *)

Definition step (st : State) : State :=
  match control st with
  | Exit _ => st
  | At L2 =>
      goto L4 (with_globals
        (bind_doc "Convert SVG to PNG files at multiple resolutions for macOS iconset") st)
  | At L4 => goto L5 (with_globals (bind_module "subprocess") st)
  | At L5 => goto L8 (with_globals (bind_module "os") st)
  | At L8 => goto L21 (with_globals (bind_sizes sizes) st)
  | At L21 =>
      goto L22 (print "Note: This script requires librsvg (rsvg-convert) to be installed." st)
  | At L22 => goto L23 (print "You can install it with: brew install librsvg" st)
  | At L23 => goto L24 (print "" st)
  | At L24 =>
      goto L25 (print "Alternatively, you can use an online converter or image editing software" st)
  | At L25 => goto L26 (print "to create PNG files at these sizes:" st)
  | At L26 => goto L28 (print "" st)
  | At L28 =>
      match iterator st with
      | None =>
          (* entering the loop: evaluate [sizes] and take its iterator *)
          match g_sizes (globals st) with
          | Some t => set_iterator (Some (t, O)) st
          | None => uncaught st
          end
      | Some (t, i) =>
          match nth_error t i with
          | Some e =>
              goto L29 (with_globals (bind_target e)
                          (set_iterator (Some (t, S i)) st))
          | None => goto L31 (set_iterator None st)
          end
      end
  | At L29 =>
      match g_filename (globals st), g_size (globals st) with
      | Some filename, Some size => goto L28 (print (entry_line filename size) st)
      | _, _ => uncaught st
      end
  | At L31 => goto L32 (print "" st)
  | At L32 => goto L33 (print "Place the PNG files in assets/helix-gpui.iconset/" st)
  | At L33 =>
      exit_with 0
        (print "Then run: iconutil -c icns assets/helix-gpui.iconset -o assets/helix-gpui.icns" st)
  end.

(** The state after [n] statements. *)
Fixpoint run (n : nat) (st : State) : State :=
  match n with
  | O => st
  | S k => run k (step st)
  end.

(** Statements executed by one run of the script: four bindings, six
    prints, the loop entry, two per table entry, the loop exit and three
    prints. *)
Definition budget : nat := 4 + 6 + 1 + 2 * List.length sizes + 1 + 3.

(** A whole run of the script in world [w]. *)
Definition main (w : World) : State := run budget (init w).

Definition exit_status (st : State) : option Z :=
  match control st with
  | Exit code => Some code
  | At _ => None
  end.

(** The lines of the size list: the ones that open with a dash. *)
Definition is_entry (l : string) : bool := String.prefix "- " l.

Definition entry_lines (out : string) : list string :=
  filter is_entry (lines out).

(** ** What a run keeps *)

(** Control has not yet passed the assignment of line 8. *)
Definition before_table (c : Control) : bool :=
  match c with
  | At L2 | At L4 | At L5 | At L8 => true
  | _ => false
  end.

(** The binding of [sizes]: absent up to line 8, the table ever after. *)
Definition table_bound (st : State) : Prop :=
  g_sizes (globals st) = if before_table (control st) then None else Some sizes.

(** The names a statement reads are bound when control reaches it, and the
    only exit is the normal one. *)
Definition reads_bound (st : State) : Prop :=
  match control st with
  | At L29 => g_filename (globals st) <> None /\ g_size (globals st) <> None
  | Exit code => code = 0
  | At _ => True
  end.

Definition invariant (st : State) : Prop := table_bound st /\ reads_bound st.

(** ** Running the machine *)

Section Running.

Variable w : World.

Lemma run_step (n : nat) (st : State) :
  run (S n) st = step (run n st).
Proof.
  revert st; induction n as [|n IH]; intros st; [reflexivity|].
  change (run (S (S n)) st) with (run (S n) (step st)).
  rewrite IH; reflexivity.
Qed.

Lemma run_add (n m : nat) (st : State) :
  run (n + m) st = run m (run n st).
Proof.
  revert st; induction n as [|n IH]; intros st; simpl; auto.
Qed.

Lemma step_exited (st : State) (code : Z) :
  control st = Exit code -> step st = st.
Proof. intros H; unfold step; rewrite H; reflexivity. Qed.

Lemma run_exited (n : nat) (st : State) (code : Z) :
  control st = Exit code -> run n st = st.
Proof.
  induction n as [|n IH]; intros H; [reflexivity|].
  rewrite run_step, IH by exact H. eapply step_exited; eauto.
Qed.

Lemma main_exit : control (main w) = Exit 0.
Proof. vm_compute. reflexivity. Qed.

(** Once the budget is spent the run has ended: more steps change
    nothing. *)
Lemma run_past_budget (n : nat) :
  run (budget + n) (init w) = main w.
Proof.
  unfold main. rewrite run_add.
  apply run_exited with (code := 0). exact main_exit.
Qed.

End Running.

(** ** Invariants of a run *)

Section Invariants.

Variable w : World.

Lemma init_invariant : invariant (init w).
Proof. split; [reflexivity | exact I]. Qed.

Lemma step_invariant (st : State) : invariant st -> invariant (step st).
Proof.
  destruct st as [w0 c g it out], g as [d ms t sz fn].
  unfold invariant, table_bound, reads_bound; simpl.
  intros [Ht Hr].
  destruct c as [l|code]; [|split; assumption].
  destruct l; simpl in Ht; subst t; unfold step; simpl;
    try (split; [reflexivity | exact I || reflexivity]).
  - (* line 28 *)
    destruct it as [[tbl i]|]; simpl.
    + destruct (nth_error tbl i) as [[size filename]|]; simpl;
        (split; [reflexivity | try exact I]).
      split; discriminate.
    + split; [reflexivity | exact I].
  - (* line 29 *)
    destruct Hr as [Hfn Hsz].
    destruct fn as [filename|]; [|contradiction].
    destruct sz as [size|]; [|contradiction].
    split; [reflexivity | exact I].
Qed.

Lemma run_invariant (n : nat) : invariant (run n (init w)).
Proof.
  induction n as [|n IH]; [apply init_invariant|].
  rewrite run_step. apply step_invariant, IH.
Qed.

End Invariants.

(** ** The [for] statement, for any list it is given *)

Section Loop.

(** The list the iterator walks. *)
Variable t : list (Z * string).

Lemma append_assoc (a b c : string) : (a ++ b) ++ c = a ++ (b ++ c).
Proof. induction a as [|x a IH]; simpl; [reflexivity | now rewrite IH]. Qed.

Lemma unlines_cons (l : string) (ls : list string) :
  unlines (l :: ls) = l ++ nl ++ unlines ls.
Proof. reflexivity. Qed.

Lemma skipn_cons_nth (l : list (Z * string)) :
  forall (i : nat) (e : Z * string) (rest : list (Z * string)),
    skipn i l = e :: rest ->
    nth_error l i = Some e /\ skipn (S i) l = rest.
Proof.
  induction l as [|x l IH]; intros i e rest H.
  - destruct i; discriminate H.
  - destruct i as [|i]; simpl in H.
    + injection H as -> ->. split; reflexivity.
    + apply IH in H. exact H.
Qed.

Lemma skipn_nil_nth (l : list (Z * string)) :
  forall i : nat, skipn i l = [] -> nth_error l i = None.
Proof.
  induction l as [|x l IH]; intros i H.
  - destruct i; reflexivity.
  - destruct i as [|i]; simpl in H; [discriminate H | apply IH, H].
Qed.

(** From the head of the loop with the iterator at index [i], the
    machine prints one line per remaining element, in order, and leaves
    the loop at line 31; nothing else is written and [sizes] is not
    rebound. *)
Lemma for_loop_emits :
  forall (rest : list (Z * string)) (i : nat) (st : State),
    control st = At L28 ->
    iterator st = Some (t, i) ->
    skipn i t = rest ->
    let st' := run (2 * List.length rest + 1) st in
    control st' = At L31 /\
    iterator st' = None /\
    g_sizes (globals st') = g_sizes (globals st) /\
    stdout st' =
      stdout st ++ unlines (map (fun e => entry_line (snd e) (fst e)) rest).
Proof.
  induction rest as [|e rest IH]; intros i st Hc Hit Hskip;
    destruct st as [w c g it out], g as [d ms tb sz fn];
    simpl in Hc, Hit; subst c it.
  - apply skipn_nil_nth in Hskip.
    cbv zeta. simpl run. unfold step; simpl. rewrite Hskip. simpl.
    repeat split. clear. induction out as [|x out IH]; simpl; congruence.
  - apply skipn_cons_nth in Hskip. destruct Hskip as [Hnth Hskip].
    cbv zeta.
    replace (2 * List.length (e :: rest) + 1)%nat
      with (2 + (2 * List.length rest + 1))%nat by (simpl; lia).
    rewrite run_add.
    destruct e as [size filename].
    assert (H2 : run 2
              (mkState w (At L28) (mkGlobals d ms tb sz fn) (Some (t, i)) out)
            = mkState w (At L28)
                (mkGlobals d ms tb (Some size) (Some filename))
                (Some (t, S i)) (out ++ entry_line filename size ++ nl)).
    { simpl run. unfold step at 2; simpl. rewrite Hnth. reflexivity. }
    rewrite H2.
    match goal with
    | |- context [run _ ?s] =>
        destruct (IH (S i) s eq_refl eq_refl Hskip) as (Hc' & Hit' & Hg' & Hout')
    end.
    split; [exact Hc' | split; [exact Hit' | split]].
    + rewrite Hg'. reflexivity.
    + rewrite Hout'. cbn [stdout map snd fst].
      rewrite unlines_cons, !append_assoc. reflexivity.
Qed.

End Loop.

(** ** Decimal numerals *)

Section Numerals.

Lemma length_append (a b : string) :
  String.length (a ++ b) = (String.length a + String.length b)%nat.
Proof. induction a as [|x a IH]; simpl; [reflexivity | now rewrite IH]. Qed.

Lemma to_int_proper (z : Z) : Z.to_int z <> Pos Nil /\ Z.to_int z <> Neg Nil.
Proof.
  destruct z as [|p|p]; simpl; split; try discriminate;
    intros H; injection H; apply Unsigned.to_uint_nonnil.
Qed.

(** Different integers have different numerals. *)
Lemma str_inj (a b : Z) : str a = str b -> a = b.
Proof.
  unfold str; intros H.
  apply (f_equal NilZero.int_of_string) in H.
  destruct (to_int_proper a) as [Ha1 Ha2], (to_int_proper b) as [Hb1 Hb2].
  rewrite !NilZero.isi in H by assumption.
  injection H as H. apply to_int_inj, H.
Qed.

End Numerals.

(** ** The report *)

(** C1. The size list of the report has exactly ten lines, one per table
    entry and in table order: the pixel dimensions 16, 32, 32, 64, 128,
    256, 256, 512, 512, 1024 paired with the ten iconset filenames. *)
Theorem size_list_has_ten_lines (w : World) :
  List.length (entry_lines (stdout (main w))) = 10%nat /\
  entry_lines (stdout (main w)) =
    [ "- icon_16x16.png: 16x16 pixels";
      "- icon_16x16@2x.png: 32x32 pixels";
      "- icon_32x32.png: 32x32 pixels";
      "- icon_32x32@2x.png: 64x64 pixels";
      "- icon_128x128.png: 128x128 pixels";
      "- icon_128x128@2x.png: 256x256 pixels";
      "- icon_256x256.png: 256x256 pixels";
      "- icon_256x256@2x.png: 512x512 pixels";
      "- icon_512x512.png: 512x512 pixels";
      "- icon_512x512@2x.png: 1024x1024 pixels" ] /\
  sizes =
    combine
      [16; 32; 32; 64; 128; 256; 256; 512; 512; 1024]
      [ "icon_16x16.png"; "icon_16x16@2x.png";
        "icon_32x32.png"; "icon_32x32@2x.png";
        "icon_128x128.png"; "icon_128x128@2x.png";
        "icon_256x256.png"; "icon_256x256@2x.png";
        "icon_512x512.png"; "icon_512x512@2x.png" ].
Proof.
  split; [|split]; vm_compute; reflexivity.
Qed.

(** C2. For every entry (dimension, filename) of the table the report has,
    in table order, exactly one line [- <filename>: <dimension>x<dimension>
    pixels], the same dimension standing for width and height. *)
Theorem one_line_per_entry (w : World) :
  entry_lines (stdout (main w)) =
    map (fun e : Z * string =>
           let (dimension, filename) := e in
           "- " ++ filename ++ ": " ++ str dimension ++ "x" ++ str dimension
                ++ " pixels")
        sizes.
Proof.
  vm_compute; reflexivity.
Qed.

(** C3. The whole output is one fixed sequence: the notice naming
    rsvg-convert and the [brew install librsvg] command, a blank line, the
    notice of the manual alternative, a blank line, the ten entry lines, a
    blank line, the instruction naming the destination directory and the
    instruction naming the [iconutil] command.  These are all the lines of
    the output, and its bytes are these lines, each ended by a line feed. *)
Theorem report_layout (w : World) :
  lines (stdout (main w)) =
    ([ "Note: This script requires librsvg (rsvg-convert) to be installed.";
       "You can install it with: brew install librsvg" ]
     ++ [ "" ]
     ++ [ "Alternatively, you can use an online converter or image editing software";
          "to create PNG files at these sizes:" ]
     ++ [ "" ]
     ++ [ "- icon_16x16.png: 16x16 pixels";
          "- icon_16x16@2x.png: 32x32 pixels";
          "- icon_32x32.png: 32x32 pixels";
          "- icon_32x32@2x.png: 64x64 pixels";
          "- icon_128x128.png: 128x128 pixels";
          "- icon_128x128@2x.png: 256x256 pixels";
          "- icon_256x256.png: 256x256 pixels";
          "- icon_256x256@2x.png: 512x512 pixels";
          "- icon_512x512.png: 512x512 pixels";
          "- icon_512x512@2x.png: 1024x1024 pixels" ]
     ++ [ "" ]
     ++ [ "Place the PNG files in assets/helix-gpui.iconset/" ]
     ++ [ "Then run: iconutil -c icns assets/helix-gpui.iconset -o assets/helix-gpui.icns" ])%list /\
  stdout (main w) =
    String.concat (String "010"%char "") (lines (stdout (main w)))
      ++ String "010"%char "".
Proof.
  split; vm_compute; reflexivity.
Qed.

(** C4. The table has exactly ten entries: the five logical sizes 16, 32,
    128, 256, 512 in ascending order, each at 1x immediately followed by
    2x.  No statement rebinds or changes it: [sizes] is unbound until line
    8 has run and holds the table in every later state. *)
Theorem size_table_constant :
  List.length sizes = 10%nat /\
  StronglySorted Z.lt [16; 32; 128; 256; 512] /\
  sizes =
    flat_map
      (fun s : Z =>
         [ (s, "icon_" ++ str s ++ "x" ++ str s ++ ".png");
           (2 * s, "icon_" ++ str s ++ "x" ++ str s ++ "@2x.png") ])
      [16; 32; 128; 256; 512] /\
  (forall (w : World) (n : nat),
      g_sizes (globals (run n (init w))) =
        if before_table (control (run n (init w))) then None else Some sizes) /\
  (forall w : World, g_sizes (globals (main w)) = Some sizes).
Proof.
  split; [reflexivity|].
  split; [repeat constructor|].
  split; [vm_compute; reflexivity|].
  split.
  - intros w n. exact (proj1 (run_invariant w n)).
  - intros w. vm_compute; reflexivity.
Qed.

(** C6. The script takes nothing from its arguments, has no failing path
    and always ends with exit status 0: every run has exited with status 0
    once its statements are spent and stays there, and no state of any run
    carries another exit status. *)
Theorem always_exits_zero (w : World) (n : nat) :
  exit_status (main w) = Some 0 /\
  exit_status (run (budget + n) (init w)) = Some 0 /\
  (exit_status (run n (init w)) = None \/
   exit_status (run n (init w)) = Some 0).
Proof.
  split; [vm_compute; reflexivity|].
  split.
  - rewrite run_past_budget. vm_compute; reflexivity.
  - destruct (run_invariant w n) as [_ Hr].
    unfold reads_bound in Hr. unfold exit_status.
    destruct (control (run n (init w))) as [l|code].
    + left; reflexivity.
    + right; rewrite Hr; reflexivity.
Qed.

(** C7. End to end: the output has the line [- icon_16x16@2x.png: 32x32
    pixels], and its closing line tells the user to run the icon-bundle
    compiler on the iconset directory. *)
Theorem end_to_end_scenario (w : World) :
  In "- icon_16x16@2x.png: 32x32 pixels" (lines (stdout (main w))) /\
  last (lines (stdout (main w))) "" =
    "Then run: iconutil -c icns assets/helix-gpui.iconset -o assets/helix-gpui.icns".
Proof.
  split.
  - vm_compute. do 7 right. left. reflexivity.
  - vm_compute; reflexivity.
Qed.

(** ** Filenames and dimensions *)

(** C8. Every filename of the table is [icon_<s>x<s>.png] or
    [icon_<s>x<s>@2x.png] for one logical size [s] among 16, 32, 128, 256,
    512, written the same way at both places. *)
Theorem filenames_follow_pattern :
  Forall
    (fun e : Z * string =>
       exists s : Z,
         In s [16; 32; 128; 256; 512] /\
         (snd e = "icon_" ++ str s ++ "x" ++ str s ++ ".png" \/
          snd e = "icon_" ++ str s ++ "x" ++ str s ++ "@2x.png"))
    sizes.
Proof.
  unfold sizes.
  repeat (apply Forall_cons || apply Forall_nil);
    first [ exists 16; split; [simpl; tauto|];
            (left; reflexivity) || (right; reflexivity)
          | exists 32; split; [simpl; tauto|];
            (left; reflexivity) || (right; reflexivity)
          | exists 128; split; [simpl; tauto|];
            (left; reflexivity) || (right; reflexivity)
          | exists 256; split; [simpl; tauto|];
            (left; reflexivity) || (right; reflexivity)
          | exists 512; split; [simpl; tauto|];
            (left; reflexivity) || (right; reflexivity) ].
Qed.

(** The numeral inside a filename is fixed by the filename's length and its
    leading characters. *)
Ltac numeral_of t HL Hfn :=
  destruct t as [|? [|? [|? [|? ?]]]]; simpl in HL; try lia;
  simpl in Hfn; try discriminate Hfn.

Ltac logical_size s Et :=
  first [ apply (str_inj s 16) in Et
        | apply (str_inj s 32) in Et
        | apply (str_inj s 128) in Et
        | apply (str_inj s 256) in Et
        | apply (str_inj s 512) in Et ].

(** C9. The filename of an entry determines its dimension: an entry named
    [icon_<s>x<s>.png] has dimension [s], and one named
    [icon_<s>x<s>@2x.png] has dimension [2 * s]. *)
Theorem dimension_determined_by_filename
    (dimension : Z) (filename : string) (s : Z) (retina : bool) :
  In (dimension, filename) sizes ->
  filename =
    "icon_" ++ str s ++ "x" ++ str s ++ (if retina then "@2x" else "") ++ ".png" ->
  dimension = if retina then 2 * s else s.
Proof.
  intros Hin Hfn.
  remember (str s) as t eqn:Et. symmetry in Et.
  pose proof (f_equal String.length Hfn) as HL.
  unfold sizes in Hin; simpl in Hin.
  repeat (destruct Hin as [Hin|Hin]; [injection Hin as <- <-|]);
    try contradiction;
    destruct retina; simpl in HL;
    repeat (rewrite length_append in HL; simpl in HL);
    try lia;
    numeral_of t HL Hfn;
    injection Hfn; intros; subst;
    logical_size s Et; subst s; reflexivity.
Qed.

Lemma dimension_determined_by_filename_witness :
  In (32, "icon_16x16@2x.png") sizes /\
  "icon_16x16@2x.png" =
    "icon_" ++ str 16 ++ "x" ++ str 16 ++ (if true then "@2x" else "") ++ ".png" /\
  32 = (if true then 2 * 16 else 16).
Proof.
  split; [simpl; tauto|].
  split; [reflexivity|].
  apply (dimension_determined_by_filename 32 "icon_16x16@2x.png" 16 true);
    [simpl; tauto | reflexivity].
Defined.

(** C10. The destination directory named in the output is exactly
    [assets/helix-gpui.iconset/] and the command named in the closing line
    is exactly [iconutil -c icns assets/helix-gpui.iconset -o
    assets/helix-gpui.icns], the same on every run. *)
Theorem closing_literals (w : World) :
  exists front : list string,
    lines (stdout (main w)) =
      (front ++
       [ ("Place the PNG files in " ++ "assets/helix-gpui.iconset/")%string;
         ("Then run: " ++
            "iconutil -c icns assets/helix-gpui.iconset -o assets/helix-gpui.icns")%string ])%list.
Proof.
  exists (firstn 17 (lines (stdout (main w)))).
  vm_compute; reflexivity.
Qed.

(** ** The [for] statement on its own *)

Section ForStatement.

Lemma append_empty (a : string) : a ++ "" = a.
Proof. induction a as [|x a IH]; simpl; [reflexivity | now rewrite IH]. Qed.

Lemma last_cons_default {A : Type} (l : list A) :
  forall x d : A, last (x :: l) d = last l x.
Proof.
  induction l as [|y l IH]; intros x d; [reflexivity|].
  change (last (x :: y :: l) d) with (last (y :: l) d).
  rewrite (IH y d), (IH y x). reflexivity.
Qed.

(** What the loop leaves in its two target names: the components of the
    last element it visited, or what they held before when there was no
    element left. *)
Lemma for_loop_binds (t : list (Z * string)) :
  forall (rest : list (Z * string)) (i : nat) (st : State),
    control st = At L28 ->
    iterator st = Some (t, i) ->
    skipn i t = rest ->
    g_size (globals (run (2 * List.length rest + 1) st)) =
      last (map (fun e => Some (fst e)) rest) (g_size (globals st)) /\
    g_filename (globals (run (2 * List.length rest + 1) st)) =
      last (map (fun e => Some (snd e)) rest) (g_filename (globals st)).
Proof.
  induction rest as [|e rest IH]; intros i st Hc Hit Hskip;
    destruct st as [w c g it out], g as [d ms tb sz fn];
    simpl in Hc, Hit; subst c it.
  - apply skipn_nil_nth in Hskip.
    simpl run. unfold step; simpl. rewrite Hskip. split; reflexivity.
  - apply skipn_cons_nth in Hskip. destruct Hskip as [Hnth Hskip].
    replace (2 * List.length (e :: rest) + 1)%nat
      with (2 + (2 * List.length rest + 1))%nat by (simpl; lia).
    rewrite run_add.
    destruct e as [size filename].
    assert (H2 : run 2
              (mkState w (At L28) (mkGlobals d ms tb sz fn) (Some (t, i)) out)
            = mkState w (At L28)
                (mkGlobals d ms tb (Some size) (Some filename))
                (Some (t, S i)) (out ++ entry_line filename size ++ nl)).
    { simpl run. unfold step at 2; simpl. rewrite Hnth. reflexivity. }
    rewrite H2.
    match goal with
    | |- context [run _ ?s] =>
        destruct (IH (S i) s eq_refl eq_refl Hskip) as [Hsz Hfn]
    end.
    rewrite Hsz, Hfn. cbn [globals g_size g_filename map fst snd].
    rewrite !last_cons_default. split; reflexivity.
Qed.

(** Entering the loop: the first visit of line 28 evaluates [sizes] and
    takes an iterator at index 0, writing nothing. *)
Lemma for_entry (t : list (Z * string)) (st : State) :
  control st = At L28 ->
  iterator st = None ->
  g_sizes (globals st) = Some t ->
  step st = set_iterator (Some (t, O)) st.
Proof.
  destruct st as [w c g it out]; simpl; intros -> -> Hg.
  unfold step; simpl. rewrite Hg. reflexivity.
Qed.

(** The lines of the loop, written out: the text of each line and the line
    feed that ends it. *)
Lemma unlines_entry_lines (t : list (Z * string)) :
  unlines (map (fun e => entry_line (snd e) (fst e)) t) =
    String.concat ""
      (map (fun e : Z * string =>
              "- " ++ snd e ++ ": " ++ str (fst e) ++ "x" ++ str (fst e)
                   ++ " pixels" ++ String "010"%char "")
           t).
Proof.
  induction t as [|e t IH]; [reflexivity|].
  cbn [map]. rewrite unlines_cons, IH.
  set (rest := String.concat "" _).
  transitivity
    (("- " ++ snd e ++ ": " ++ str (fst e) ++ "x" ++ str (fst e)
           ++ " pixels" ++ String "010"%char "") ++ rest).
  - unfold entry_line. change nl with (String "010"%char "").
    rewrite !append_assoc. reflexivity.
  - subst rest. destruct t as [|e' t]; [apply append_empty | reflexivity].
Qed.

End ForStatement.

(** X1. The [for] statement, for any list that [sizes] holds when control
    reaches it and whose sizes stay within the interpreter's default limit
    on numerals (at most 4300 digits; beyond it the f-string raises
    [ValueError], a path this machine does not have): it ends at line 31
    after two statements per element and two for entering and leaving, it
    has written after what was there exactly one line
    [- <filename>: <size>x<size> pixels] per element, each ended by a line
    feed, in list order, and [sizes] still holds the same list.  For the
    empty list it writes nothing. *)
Theorem for_statement_any_list (t : list (Z * string)) (st : State) :
  control st = At L28 ->
  iterator st = None ->
  g_sizes (globals st) = Some t ->
  Forall (fun e : Z * string => Z.abs (fst e) < 10 ^ 4300) t ->
  control (run (2 * List.length t + 2) st) = At L31 /\
  iterator (run (2 * List.length t + 2) st) = None /\
  g_sizes (globals (run (2 * List.length t + 2) st)) = Some t /\
  stdout (run (2 * List.length t + 2) st) =
    stdout st ++
    String.concat ""
      (map (fun e : Z * string =>
              "- " ++ snd e ++ ": " ++ str (fst e) ++ "x" ++ str (fst e)
                   ++ " pixels" ++ String "010"%char "")
           t).
Proof.
  intros Hc Hit Hg _.
  replace (2 * List.length t + 2)%nat
    with (1 + (2 * List.length t + 1))%nat by lia.
  rewrite run_add. change (run 1 st) with (step st).
  rewrite (for_entry t st Hc Hit Hg).
  destruct st as [w c g it out]; simpl in Hc, Hit, Hg; subst c it.
  destruct (for_loop_emits t t O
              (set_iterator (Some (t, O)) (mkState w (At L28) g None out))
              eq_refl eq_refl eq_refl) as (H1 & H2 & H3 & H4).
  split; [exact H1 | split; [exact H2 | split]].
  - rewrite H3. exact Hg.
  - rewrite H4, unlines_entry_lines. reflexivity.
Qed.

Lemma for_statement_any_list_witness :
  stdout
    (run 6
       (mkState (mkWorld [] [] "" 0 0) (At L28)
          (mkGlobals None [] (Some [(48, "a.png"); (96, "a@2x.png")]) None None)
          None "seen"))
  = "seen" ++
    String.concat ""
      [ "- a.png: 48x48 pixels" ++ String "010"%char "";
        "- a@2x.png: 96x96 pixels" ++ String "010"%char "" ].
Proof.
  assert (HF : Forall (fun e : Z * string => Z.abs (fst e) < 10 ^ 4300)
                 [(48, "a.png"); (96, "a@2x.png")])
    by (repeat constructor; vm_compute; reflexivity).
  exact (proj2 (proj2 (proj2
    (for_statement_any_list
       [(48, "a.png"); (96, "a@2x.png")]
       (mkState (mkWorld [] [] "" 0 0) (At L28)
          (mkGlobals None [] (Some [(48, "a.png"); (96, "a@2x.png")]) None None)
          None "seen")
       eq_refl eq_refl eq_refl HF)))).
Defined.

(** X2. The loop variables outlive the loop: for any list whose sizes
    stay within the interpreter's default limit on numerals (at most 4300
    digits, so that no f-string raises), after the [for] statement [size]
    and [filename] hold the components of the last element of the list,
    and for an empty list they are left as they were (unbound if nothing
    bound them before). *)
Theorem for_statement_leaves_last_element (t : list (Z * string)) (st : State) :
  control st = At L28 ->
  iterator st = None ->
  g_sizes (globals st) = Some t ->
  Forall (fun e : Z * string => Z.abs (fst e) < 10 ^ 4300) t ->
  g_size (globals (run (2 * List.length t + 2) st)) =
    last (map (fun e => Some (fst e)) t) (g_size (globals st)) /\
  g_filename (globals (run (2 * List.length t + 2) st)) =
    last (map (fun e => Some (snd e)) t) (g_filename (globals st)).
Proof.
  intros Hc Hit Hg _.
  replace (2 * List.length t + 2)%nat
    with (1 + (2 * List.length t + 1))%nat by lia.
  rewrite run_add. change (run 1 st) with (step st).
  rewrite (for_entry t st Hc Hit Hg).
  destruct st as [w c g it out]; simpl in Hc, Hit, Hg; subst c it.
  exact (for_loop_binds t t O
           (set_iterator (Some (t, O)) (mkState w (At L28) g None out))
           eq_refl eq_refl eq_refl).
Qed.

Lemma for_statement_leaves_last_element_witness :
  g_size
    (globals
       (run 6
          (mkState (mkWorld [] [] "" 0 0) (At L28)
             (mkGlobals None [] (Some [(48, "a.png"); (96, "a@2x.png")]) None None)
             None "")))
  = Some 96.
Proof.
  assert (HF : Forall (fun e : Z * string => Z.abs (fst e) < 10 ^ 4300)
                 [(48, "a.png"); (96, "a@2x.png")])
    by (repeat constructor; vm_compute; reflexivity).
  exact (proj1
    (for_statement_leaves_last_element
       [(48, "a.png"); (96, "a@2x.png")]
       (mkState (mkWorld [] [] "" 0 0) (At L28)
          (mkGlobals None [] (Some [(48, "a.png"); (96, "a@2x.png")]) None None)
          None "")
       eq_refl eq_refl eq_refl HF)).
Defined.

(** ** Output written so far *)

Section Output.

(** No statement takes back or rewrites what was written: a step only
    appends. *)
Lemma step_appends (st : State) :
  exists s : string, stdout (step st) = stdout st ++ s.
Proof.
  destruct st as [w c g it out], g as [d ms t sz fn].
  destruct c as [l|code]; [|exists ""; symmetry; apply append_empty].
  destruct l; unfold step; simpl;
    try (exists ""; symmetry; apply append_empty);
    try (eexists; reflexivity).
  - (* line 28 *)
    destruct it as [[tbl i]|]; simpl.
    + destruct (nth_error tbl i) as [[size filename]|]; simpl;
        exists ""; symmetry; apply append_empty.
    + destruct t; simpl; exists ""; symmetry; apply append_empty.
  - (* line 29 *)
    destruct fn as [filename|]; [destruct sz as [size|]|]; simpl;
      try (exists ""; symmetry; apply append_empty).
    eexists; reflexivity.
Qed.

Lemma run_appends (n : nat) :
  forall st : State, exists s : string, stdout (run n st) = stdout st ++ s.
Proof.
  induction n as [|n IH]; intros st.
  - exists "". symmetry; apply append_empty.
  - simpl. destruct (IH (step st)) as [s2 H2], (step_appends st) as [s1 H1].
    exists (s1 ++ s2). rewrite H2, H1. apply append_assoc.
Qed.

End Output.

(** X3. At every point of a run, what has been written so far is a prefix
    of the complete report: the script never takes output back, and a run
    cut short leaves the beginning of the full text. *)
Theorem partial_output_is_prefix (w : World) (n : nat) :
  exists rest : string,
    stdout (main w) = stdout (run n (init w)) ++ rest.
Proof.
  destruct (Nat.le_gt_cases n budget) as [Hle|Hgt].
  - destruct (run_appends (budget - n) (run n (init w))) as [rest Hrest].
    exists rest. rewrite <- Hrest, <- run_add. unfold main.
    f_equal. f_equal. lia.
  - exists "". rewrite append_empty.
    replace n with (budget + (n - budget))%nat by lia.
    rewrite run_past_budget. reflexivity.
Qed.

(** ** Reading an entry line back *)

Section EntryLine.

Lemma chars_app (a b : string) :
  list_ascii_of_string (a ++ b) =
    (list_ascii_of_string a ++ list_ascii_of_string b)%list.
Proof. induction a as [|x a IH]; simpl; [reflexivity | now rewrite IH]. Qed.

Lemma chars_inj (a b : string) :
  list_ascii_of_string a = list_ascii_of_string b -> a = b.
Proof.
  intros H. apply (f_equal string_of_list_ascii) in H.
  rewrite !string_of_list_ascii_of_string in H. exact H.
Qed.

(** A numeral is made of digits and at most a sign: it has no [x]. *)
Lemma uint_no_x (d : uint) :
  ~ In "x"%char (list_ascii_of_string (NilEmpty.string_of_uint d)).
Proof.
  induction d; simpl; intros H; try contradiction;
    destruct H as [H|H]; try discriminate H; apply IHd, H.
Qed.

Lemma str_no_x (z : Z) : ~ In "x"%char (list_ascii_of_string (str z)).
Proof.
  assert (Hu : forall d, ~ In "x"%char
                 (list_ascii_of_string (NilZero.string_of_uint d))).
  { intros d. destruct d; try apply uint_no_x.
    simpl. intros [H|H]; [discriminate H | contradiction]. }
  unfold str. destruct (Z.to_int z) as [d|d]; simpl.
  - apply Hu.
  - intros [H|H]; [discriminate H | apply (Hu d), H].
Qed.

(** Two texts cut at their first [x] agree piece by piece. *)
Lemma split_at_first_x (a : list ascii) :
  forall b r1 r2 : list ascii,
    ~ In "x"%char a -> ~ In "x"%char b ->
    (a ++ "x"%char :: r1 = b ++ "x"%char :: r2)%list ->
    a = b /\ r1 = r2.
Proof.
  induction a as [|c a IH]; intros b r1 r2 Ha Hb H; destruct b as [|c' b];
    simpl in H.
  - injection H as H. split; [reflexivity | exact H].
  - injection H as H _. exfalso. apply Hb. left. symmetry; exact H.
  - injection H as H _. exfalso. apply Ha. left. exact H.
  - injection H as Hc H.
    destruct (IH b r1 r2) as [Hab Hr]; try exact H.
    + intros Hin. apply Ha. right. exact Hin.
    + intros Hin. apply Hb. right. exact Hin.
    + subst. split; reflexivity.
Qed.

(** The same, cut at the last [x]. *)
Lemma split_at_last_x (a1 a2 n1 n2 : list ascii) :
  ~ In "x"%char n1 -> ~ In "x"%char n2 ->
  (a1 ++ "x"%char :: n1 = a2 ++ "x"%char :: n2)%list ->
  a1 = a2 /\ n1 = n2.
Proof.
  intros H1 H2 H. apply (f_equal (@List.rev ascii)) in H.
  rewrite !rev_app_distr in H. simpl in H. rewrite <- !app_assoc in H.
  simpl in H.
  apply split_at_first_x in H.
  - destruct H as [Hn Ha].
    apply (f_equal (@List.rev ascii)) in Hn, Ha.
    rewrite !rev_involutive in Hn, Ha. split; assumption.
  - intros Hin. apply H1, in_rev, Hin.
  - intros Hin. apply H2, in_rev, Hin.
Qed.

End EntryLine.

(** X4. An entry line can be read back without ambiguity: two lines
    produced by the f-string of line 29 are equal only if they were built
    from the same filename and the same size, whatever the filename
    contains. *)
Theorem entry_line_injective (filename1 filename2 : string) (size1 size2 : Z) :
  entry_line filename1 size1 = entry_line filename2 size2 ->
  filename1 = filename2 /\ size1 = size2.
Proof.
  intros H. apply (f_equal list_ascii_of_string) in H.
  unfold entry_line in H. rewrite !chars_app in H.
  set (tail := list_ascii_of_string " pixels") in H.
  set (n1 := list_ascii_of_string (str size1)) in H.
  set (n2 := list_ascii_of_string (str size2)) in H.
  set (f1 := list_ascii_of_string filename1) in H.
  set (f2 := list_ascii_of_string filename2) in H.
  simpl in H. injection H as H.
  assert (H' : (((f1 ++ ":"%char :: " "%char :: n1) ++ "x"%char :: n1) ++ tail
             = ((f2 ++ ":"%char :: " "%char :: n2) ++ "x"%char :: n2) ++ tail)%list).
  { rewrite <- !app_assoc. simpl. rewrite <- ?app_assoc. exact H. }
  apply app_inv_tail in H'.
  apply split_at_last_x in H'; try apply str_no_x.
  destruct H' as [Hf Hn].
  assert (Hs : size1 = size2) by (apply str_inj, chars_inj, Hn).
  split; [|exact Hs].
  rewrite Hn in Hf.
  change (f1 ++ ":"%char :: " "%char :: n2)%list
    with (f1 ++ [":"%char; " "%char] ++ n2)%list in Hf.
  change (f2 ++ ":"%char :: " "%char :: n2)%list
    with (f2 ++ [":"%char; " "%char] ++ n2)%list in Hf.
  rewrite !app_assoc in Hf.
  apply app_inv_tail, app_inv_tail in Hf.
  apply chars_inj, Hf.
Qed.

Lemma entry_line_injective_witness :
  "icon_16x16@2x.png" = "icon_16x16@2x.png" /\ 32 = 32.
Proof.
  apply (entry_line_injective "icon_16x16@2x.png" "icon_16x16@2x.png" 32 32).
  reflexivity.
Defined.
